(** * Remote MCP server configuration, the remote toolset and the
      feature decorators of [google.adk]

    A shallow embedding of
    - [google/adk/tools/mcp_tool/mcp_server_config.py]
    - [google/adk/tools/mcp_tool/remote_mcp_toolset.py]
    - [google/adk/utils/feature_decorator.py]
    and the properties of these modules. *)

From Stdlib Require Import Ascii String.
From stdpp Require Import gmap strings list fin_maps functions pretty.

#[local] Set Warnings "-register-all".
#[local] Open Scope string_scope.
#[local] Open Scope list_scope.

(** ** Python values *)

(** The values that reach a field typed [Any]: the dictionaries handled by
    the configuration model map strings to such values. *)
Inductive pyval : Type :=
  | PyNone
  | PyBool (b : bool)
  | PyInt (z : Z)
  | PyStr (s : string)
  | PyList (l : list pyval)
  | PyDict (d : gmap string pyval).

(** [Dict[str, Any]] *)
Abbreviation pydict := (gmap string pyval).

(** Python truthiness, as used by [if x:]. *)
Definition str_truthy (s : string) : bool :=
  match s with
  | EmptyString => false
  | String _ _ => true
  end.

(** [if x:] for [x : Optional[str]]: [None] and [''] are falsy. *)
Definition opt_str_truthy (o : option string) : bool :=
  match o with
  | None => false
  | Some s => str_truthy s
  end.

(** [if d:] for a dict: the empty dict is falsy. *)
Definition dict_truthy (d : pydict) : bool :=
  bool_decide (d ≠ ∅).

(** [d.update(m)]: every entry of [m] is written into [d], an entry of [m]
    replacing the entry of [d] under the same key. *)
Definition dict_update (d m : pydict) : pydict := m ∪ d.

(** ** Exceptions and results *)

Inductive exn : Type :=
  | ValidationError (errors : list (string * string))
  | TypeError (msg : string)
  | Exception (class_name : string) (msg : string).

Inductive result (A : Type) : Type :=
  | Ok (a : A)
  | Raise (e : exn).
Arguments Ok {A} a.
Arguments Raise {A} e.


(** A computation over a state [S] reads and writes the state, and returns
    or raises; what it wrote before raising stays written. *)
Definition ST (S A : Type) : Type := S -> result A * S.

Definition ret {S A} (a : A) : ST S A := fun st => (Ok a, st).

Definition raise {S A} (e : exn) : ST S A := fun st => (Raise e, st).

Definition bind {S A B} (c : ST S A) (k : A -> ST S B) : ST S B :=
  fun st =>
    match c st with
    | (Ok a, st') => k a st'
    | (Raise e, st') => (Raise e, st')
    end.

Notation "'do' x <- c ; k" := (bind c (fun x => k))
  (at level 10, x name, c at level 100, k at level 200).
Notation "c ;; k" := (bind c (fun _ => k))
  (at level 100, k at level 200, right associativity).

(** ** [mcp_server_config.py] *)

(** *** Validation of keyword arguments against the declared fields

    [MCPServerConfig] is a pydantic model: its constructor takes keyword
    arguments and checks each declared field.  A field declared with
    [Field(...)] is required, one with a default may be left out. *)

(** One entry of a validation error: the field and what is wrong with it. *)
Definition field_error : Type := string * string.

(** [f: str = Field(...)] *)
Definition validate_required_str (field : string) (kw : pydict)
  : string + field_error :=
  match kw !! field with
  | None => inr (field, "Field required")
  | Some (PyStr s) => inl s
  | Some _ => inr (field, "Input should be a valid string")
  end.

(** [f: Optional[str] = Field(default=None)] *)
Definition validate_optional_str (field : string) (kw : pydict)
  : option string + field_error :=
  match kw !! field with
  | None => inl None
  | Some PyNone => inl None
  | Some (PyStr s) => inl (Some s)
  | Some _ => inr (field, "Input should be a valid string")
  end.

(** [f: Dict[str, Any] = Field(default_factory=dict)] *)
Definition validate_dict (field : string) (kw : pydict)
  : pydict + field_error :=
  match kw !! field with
  | None => inl ∅
  | Some (PyDict d) => inl d
  | Some _ => inr (field, "Input should be a valid dictionary")
  end.

Definition errors_of {A} (r : A + field_error) : list field_error :=
  match r with
  | inl _ => []
  | inr e => [e]
  end.

Module MCPServerConfig.

(** The fields of the model, lines 40-44. *)
Record t : Type := mk {
  server_url : string;
  type : string;
  name : option string;
  description : option string;
  metadata : pydict
}.

(** The constructor, called with the keyword arguments [kw]: every field
    is validated, and the errors of all fields are reported together. *)
Definition __init__ (kw : pydict) : result t :=
  let r_url := validate_required_str "server_url" kw in
  let r_type := validate_required_str "type" kw in
  let r_name := validate_optional_str "name" kw in
  let r_desc := validate_optional_str "description" kw in
  let r_meta := validate_dict "metadata" kw in
  match r_url, r_type, r_name, r_desc, r_meta with
  | inl u, inl ty, inl n, inl d, inl m => Ok (mk u ty n d m)
  | _, _, _, _, _ =>
      Raise (ValidationError
               (errors_of r_url ++ errors_of r_type ++ errors_of r_name
                ++ errors_of r_desc ++ errors_of r_meta))
  end.

(** [to_langdb_format], lines 46-65. *)
Definition to_langdb_format (self : t) : pydict :=
  let result : pydict :=
    <["type" := PyStr (type self)]>
      (<["server_url" := PyStr (server_url self)]> ∅) in
  let result :=
    if opt_str_truthy (name self)
    then <["name" := PyStr (default "" (name self))]> result
    else result in
  let result :=
    if opt_str_truthy (description self)
    then <["description" := PyStr (default "" (description self))]> result
    else result in
  let result :=
    if dict_truthy (metadata self)
    then dict_update result (metadata self)
    else result in
  result.

(** [from_url], lines 67-83; [server_type] defaults to [sse] and
    [kwargs] holds the remaining keyword arguments.
    A keyword that names one of the two parameters cannot be bound a
    second time, and [type] is passed twice to [cls] when [kwargs] has
    it: Python raises [TypeError] in each case. *)
Definition from_url (server_url : string) (server_type : option string)
    (kwargs : pydict) : result t :=
  let server_type := default "sse" server_type in
  if bool_decide (is_Some (kwargs !! "server_url")) then
    Raise (TypeError "from_url() got multiple values for argument 'server_url'")
  else if bool_decide (is_Some (kwargs !! "server_type")) then
    Raise (TypeError "from_url() got multiple values for argument 'server_type'")
  else if bool_decide (is_Some (kwargs !! "type")) then
    Raise (TypeError "got multiple values for keyword argument 'type'")
  else
    __init__ (<["server_url" := PyStr server_url]>
                (<["type" := PyStr server_type]> kwargs)).

End MCPServerConfig.

(** ** Objects, the logger and the monad of the stateful code

    A [RemoteMCPConfig] is a mutable object: [add_server] appends to its
    [servers] list in place, and a toolset built from a supplied collection
    holds that very object.  The store keeps the [servers] list of every
    [RemoteMCPConfig] under its address, the next free address, and the
    records written to the module logger. *)

Abbreviation loc := nat (only parsing).

(** A reference to an object of a class defined outside these modules
    ([ReadonlyContext], [BaseTool], [ToolPredicate]): the code here only
    passes such objects around. *)
Abbreviation pyref := nat (only parsing).

Inductive log_level : Type := DEBUG | INFO.

Record store : Type := mkStore {
  servers_of : loc -> list MCPServerConfig.t;
  next_loc : loc;
  log : list (log_level * string)
}.

Definition empty_store : store := mkStore (fun _ => []) 0 [].

(** The code of the two toolset modules runs in [M]. *)
Abbreviation M := (ST store).

(** A pure call that may raise. *)
Definition lift {S A} (r : result A) : ST S A := fun st => (r, st).

Definition get_servers (l : loc) : M (list MCPServerConfig.t) :=
  fun st => (Ok (servers_of st l), st).

Definition set_servers (l : loc) (v : list MCPServerConfig.t) : M unit :=
  fun st => (Ok tt, mkStore (<[l := v]> (servers_of st)) (next_loc st) (log st)).

(** A new [RemoteMCPConfig] object holding [v]. *)
Definition alloc (v : list MCPServerConfig.t) : M loc :=
  fun st =>
    (Ok (next_loc st),
     mkStore (<[next_loc st := v]> (servers_of st)) (S (next_loc st)) (log st)).

Definition logger_info (msg : string) : M unit :=
  fun st => (Ok tt, mkStore (servers_of st) (next_loc st) (log st ++ [(INFO, msg)])).

Definition logger_debug (msg : string) : M unit :=
  fun st => (Ok tt, mkStore (servers_of st) (next_loc st) (log st ++ [(DEBUG, msg)])).

(** [[f(x) for x in xs]]: the result list starts empty and gets one
    element appended per element of [xs], in iteration order. *)
Definition list_comprehension {A B} (f : A -> B) (xs : list A) : list B :=
  fold_left (fun acc x => acc ++ [f x]) xs [].

Module RemoteMCPConfig.

(** [RemoteMCPConfig(servers=...)]; without the argument the field is
    [default_factory=list], line 93. *)
Definition __init__ (servers : option (list MCPServerConfig.t)) : M loc :=
  alloc (default [] servers).

(** [add_server], lines 95-101. *)
Definition add_server (self : loc) (server : MCPServerConfig.t) : M unit :=
  do servers <- get_servers self;
  set_servers self (servers ++ [server]).

(** [add_server_url], lines 103-112. *)
Definition add_server_url (self : loc) (server_url : string)
    (server_type : option string) (kwargs : pydict) : M unit :=
  do server <- lift (MCPServerConfig.from_url server_url server_type kwargs);
  add_server self server.

(** [to_langdb_format], lines 114-120. *)
Definition to_langdb_format (self : loc) : M (list pydict) :=
  do servers <- get_servers self;
  ret (list_comprehension MCPServerConfig.to_langdb_format servers).

(** [__len__], lines 122-124. *)
Definition __len__ (self : loc) : M nat :=
  do servers <- get_servers self;
  ret (length servers).

(** [__bool__], lines 126-128. *)
Definition __bool__ (self : loc) : M bool :=
  do servers <- get_servers self;
  ret (bool_decide (0 < length servers)).

End RemoteMCPConfig.

(** [if x:] for [x : Optional[RemoteMCPConfig]]: [None] is falsy, an
    object is as truthy as its [__bool__] says. *)
Definition opt_config_truthy (o : option loc) : M bool :=
  match o with
  | None => ret false
  | Some l => RemoteMCPConfig.__bool__ l
  end.

(** An [Optional[str]] as a Python value. *)
Definition py_opt_str (o : option string) : pyval :=
  match o with
  | None => PyNone
  | Some s => PyStr s
  end.

(** ** [remote_mcp_toolset.py] *)

Module RemoteMCPToolset.

(** [Union[ToolPredicate, List[str]]] *)
Inductive tool_filter_t : Type :=
  | FilterPredicate (p : pyref)
  | FilterNames (names : list string).

(** The attributes of a toolset: [tool_filter] is set by the base class
    constructor, [mcp_config] refers to the collection object. *)
Record t : Type := mk {
  tool_filter : option tool_filter_t;
  mcp_config : loc
}.

(** [add_server], lines 104-129. *)
Definition add_server (self : t) (server_url : string)
    (server_type : option string) (name description : option string)
    (metadata : pydict) : M unit :=
  let server_type := default "sse" server_type in
  do server_config <-
    lift (MCPServerConfig.__init__
            (<["server_url" := PyStr server_url]>
            (<["type" := PyStr server_type]>
            (<["name" := py_opt_str name]>
            (<["description" := py_opt_str description]>
            (<["metadata" := PyDict metadata]> ∅))))));
  RemoteMCPConfig.add_server (mcp_config self) server_config;;
  logger_info ("Added remote MCP server: " +:+ server_url
               +:+ " (type: " +:+ server_type +:+ ")").

(** [__init__], lines 68-102. *)
Definition __init__ (server_url : option string)
    (server_type : option string) (server_name : option string)
    (server_description : option string) (mcp_config : option loc)
    (tool_filter : option tool_filter_t) : M t :=
  let server_type := default "sse" server_type in
  do supplied <- opt_config_truthy mcp_config;
  do config <-
    (if supplied then ret (default 0 mcp_config)
     else RemoteMCPConfig.__init__ None);
  let self := mk tool_filter config in
  (if opt_str_truthy server_url
   then add_server self (default "" server_url) (Some server_type)
          server_name server_description ∅
   else ret tt);;
  ret self.

(** [add_server_config], lines 131-138. *)
Definition add_server_config (self : t) (server_config : MCPServerConfig.t)
    : M unit :=
  RemoteMCPConfig.add_server (mcp_config self) server_config;;
  logger_info ("Added remote MCP server: "
               +:+ MCPServerConfig.server_url server_config).

(** [get_tools], lines 140-160.  The coroutine has no suspension point:
    awaiting it runs the body. *)
Definition get_tools (self : t) (readonly_context : option pyref)
    : M (list pyref) :=
  do servers <- get_servers (mcp_config self);
  logger_info ("RemoteMCPToolset configured with "
               +:+ pretty (length servers) +:+ " remote servers");;
  ret [].

(** [close], lines 162-169. *)
Definition close (self : t) : M unit :=
  logger_debug "Closing RemoteMCPToolset (no-op for remote servers)".

(** [get_mcp_servers_config], lines 171-177. *)
Definition get_mcp_servers_config (self : t) : M (list pydict) :=
  RemoteMCPConfig.to_langdb_format (mcp_config self).

(** [__len__], lines 179-181. *)
Definition __len__ (self : t) : M nat :=
  RemoteMCPConfig.__len__ (mcp_config self).

(** [__bool__], lines 183-185. *)
Definition __bool__ (self : t) : M bool :=
  RemoteMCPConfig.__bool__ (mcp_config self).

End RemoteMCPToolset.

(** ** [feature_decorator.py] *)

Module feature_decorator.

(** [str.upper] on the ASCII letters; other bytes are kept. *)
Definition upper_ascii (a : ascii) : ascii :=
  let n := nat_of_ascii a in
  if bool_decide (97 ≤ n ≤ 122)%nat then ascii_of_nat (n - 32) else a.

Fixpoint upper (s : string) : string :=
  match s with
  | EmptyString => EmptyString
  | String a s' => String (upper_ascii a) (upper s')
  end.

Inductive warning_category : Type := UserWarning.

Section objects.

(** What the decorated code itself can read and write. *)
Context {U : Type}.

(** The state a call runs in: the warnings issued so far, in order,
    and the state of the user's program. *)
Record world : Type := mkWorld {
  issued : list (warning_category * string);
  user : U
}.

(** [warnings.warn(msg, category=category, stacklevel=2)] *)
Definition warnings_warn (msg : string) (category : warning_category)
    : ST world unit :=
  fun w => (Ok tt, mkWorld (issued w ++ [(category, msg)]) (user w)).

(** Positional and keyword arguments of a call. *)
Record args : Type := mkArgs {
  positional : list pyval;
  keywords : pydict
}.

(** A callable that is not a class: its [__name__] when it has one,
    the name of its type, and what calling it does. *)
Record callable : Type := mkCallable {
  fn_name : option string;
  fn_type_name : string;
  fn_call : args -> ST world pyval
}.

(** A class: its [__name__] and its [__init__], which takes the
    attributes of [self] and gives them back as it leaves them. *)
Record pyclass : Type := mkClass {
  cls_name : string;
  cls_init : pydict -> args -> ST world pydict
}.

(** Classes are objects with an identity: [class_table] gives the
    current attributes of each class, and the decorator writes to it. *)
Definition class_table : Type := nat -> pyclass.

Record instance : Type := mkInstance {
  inst_class : nat;
  inst_dict : pydict
}.

(** Calling the class [c]: a new object of class [c] is made and the
    [__init__] found on [c] at that moment is run on it. *)
Definition construct (classes : class_table) (c : nat) (a : args)
    : ST world instance :=
  do d <- cls_init (classes c) ∅ a;
  ret (mkInstance c d).

(** The objects a decorator can be applied to. *)
Inductive pyobj : Type :=
  | ObjClass (c : nat)
  | ObjCallable (f : callable)
  | ObjValue (v : pyval).

(** [type(v).__name__] *)
Definition type_name (v : pyval) : string :=
  match v with
  | PyNone => "NoneType"
  | PyBool _ => "bool"
  | PyInt _ => "int"
  | PyStr _ => "str"
  | PyList _ => "list"
  | PyDict _ => "dict"
  end.

(** [getattr(obj, '__name__', type(obj).__name__)], line 32. *)
Definition obj_name (classes : class_table) (obj : pyobj) : string :=
  match obj with
  | ObjClass c => cls_name (classes c)
  | ObjCallable f => default (fn_type_name f) (fn_name f)
  | ObjValue v => type_name v
  end.

(** [functools.wraps(wrapped)(wrapper)] for a wrapper defined by [def]
    under the name [def_name]: the wrapper takes the [__name__] of
    [wrapped] when it has one. *)
Definition functools_wraps (wrapped : callable) (def_name : string)
    (body : args -> ST world pyval) : callable :=
  mkCallable (Some (default def_name (fn_name wrapped))) "function" body.

(** [_make_feature_decorator(label=..., default_message=...)] applied
    to an optional message and then to [obj], lines 27-62. *)
Definition _make_feature_decorator (label default_message : string)
    (message : option string) (obj : pyobj) : ST class_table pyobj :=
  fun classes =>
    let message := default default_message message in
    let obj_name := obj_name classes obj in
    let warn_msg :=
      "[" +:+ upper label +:+ "] " +:+ obj_name +:+ ": " +:+ message in
    match obj with
    | ObjClass c =>
        let orig_init := cls_init (classes c) in
        let new_init := fun self a =>
          warnings_warn warn_msg UserWarning;;
          orig_init self a in
        (Ok (ObjClass c),
         <[c := mkClass (cls_name (classes c)) new_init]> classes)
    | ObjCallable f =>
        let wrapper := fun a =>
          warnings_warn warn_msg UserWarning;;
          fn_call f a in
        (Ok (ObjCallable (functools_wraps f "wrapper" wrapper)), classes)
    | ObjValue _ =>
        (Raise (TypeError
           ("@" +:+ label
            +:+ " can only be applied to classes or callable objects")),
         classes)
    end.

(** The world after one more warning has been issued. *)
Definition warned (msg : string) (w : world) : world :=
  mkWorld (issued w ++ [(UserWarning, msg)]) (user w).

(** The text of the warning: [[LABEL] name: message]. *)
Definition warning_text (label name message : string) : string :=
  "[" +:+ upper label +:+ "] " +:+ name +:+ ": " +:+ message.

(** A call that works on the user's state only: it neither reads nor
    issues warnings. *)
Definition on_user (g : args -> U -> result pyval * U)
    : args -> ST world pyval :=
  fun a w =>
    let (r, u') := g a (user w) in
    (r, mkWorld (issued w) u').


(** The callable inside an object, if it is one. *)
Definition as_callable (r : result pyobj) : option callable :=
  match r with
  | Ok (ObjCallable f) => Some f
  | _ => None
  end.

(** The warning a decorator made from [label] and [default_message]
    attaches to [obj] when it is given [message]. *)
Definition warning_for (label default_message : string)
    (message : option string) (classes : class_table) (obj : pyobj)
    : string :=
  warning_text label (obj_name classes obj)
    (default default_message message).

(** Lines 65-70. *)
Definition working_in_progress :=
  _make_feature_decorator "WIP"
    "This feature is a work in progress and may be incomplete or unstable.".

(** Lines 82-89. *)
Definition experimental :=
  _make_feature_decorator "EXPERIMENTAL"
    ("This feature is experimental and may change or be removed in future"
     +:+ " versions without notice. It may introduce breaking changes at any"
     +:+ " time.").

End objects.

Arguments world : clear implicits.
Arguments callable : clear implicits.
Arguments pyclass : clear implicits.
Arguments class_table : clear implicits.
Arguments pyobj : clear implicits.

End feature_decorator.


(** * Properties *)

(** ** Concrete configurations and stores used below *)

(** A search server with no optional field. *)
Definition cfg_search : MCPServerConfig.t :=
  MCPServerConfig.mk "https://api.example/search" "sse" None None ∅.

(** A server whose metadata happens to use the key [name]. *)
Definition cfg_meta_name : MCPServerConfig.t :=
  MCPServerConfig.mk "https://api.example/search" "sse" None None
    {["name" := PyStr "x"]}.

(** The same for the key [description]. *)
Definition cfg_meta_description : MCPServerConfig.t :=
  MCPServerConfig.mk "https://api.example/search" "sse" None None
    {["description" := PyInt 1]}.



(** A store in which the collection at address [0] holds [cfg_search]. *)
Definition store_one_server : store :=
  mkStore (<[0 := [cfg_search]]> (fun _ => [])) 1 [].

(** The dictionary built from the base fields, before the metadata. *)
Definition base_format (self : MCPServerConfig.t) : pydict :=
  let result : pydict :=
    <["type" := PyStr (MCPServerConfig.type self)]>
      (<["server_url" := PyStr (MCPServerConfig.server_url self)]> ∅) in
  let result :=
    if opt_str_truthy (MCPServerConfig.name self)
    then <["name" := PyStr (default "" (MCPServerConfig.name self))]> result
    else result in
  if opt_str_truthy (MCPServerConfig.description self)
  then <["description" := PyStr (default "" (MCPServerConfig.description self))]> result
  else result.





(** Adding the configurations of a list to a toolset, one call of
    [add_server_config] each, in order. *)
Fixpoint add_server_configs (self : RemoteMCPToolset.t)
    (configs : list MCPServerConfig.t) : M unit :=
  match configs with
  | [] => ret tt
  | c :: configs' =>
      RemoteMCPToolset.add_server_config self c;;
      add_server_configs self configs'
  end.

(** The collection a new toolset refers to: the supplied one when it is
    given and not empty, else a new object. *)
Definition chosen_config (mcp_config : option nat) (st : store) : nat :=
  match mcp_config with
  | None => next_loc st
  | Some l =>
      if bool_decide (0 < length (servers_of st l)) then l else next_loc st
  end.

(** The store once a new toolset has its collection: as before when the
    supplied collection is taken, with one more, empty, collection
    otherwise. *)
Definition store_with_config (mcp_config : option nat) (st : store) : store :=
  match mcp_config with
  | None => snd (alloc [] st)
  | Some l =>
      if bool_decide (0 < length (servers_of st l)) then st
      else snd (alloc [] st)
  end.

(** The endpoint described by the single-endpoint arguments below. *)
Definition cfg_files : MCPServerConfig.t :=
  MCPServerConfig.mk "https://api.example/files" "http" (Some "files") None ∅.

(** [(len(c), bool(c))] for a collection and for a toolset. *)
Definition collection_len_bool (c : nat) : M (nat * bool) :=
  do n <- RemoteMCPConfig.__len__ c;
  do b <- RemoteMCPConfig.__bool__ c;
  ret (n, b).

Definition toolset_len_bool (t : RemoteMCPToolset.t) : M (nat * bool) :=
  do n <- RemoteMCPToolset.__len__ t;
  do b <- RemoteMCPToolset.__bool__ t;
  ret (n, b).

(** A function [answer] that returns [42] and counts its calls in the
    user's state. *)
Definition answer : feature_decorator.callable nat :=
  feature_decorator.mkCallable (Some "answer") "function"
    (feature_decorator.on_user (fun _ n => (Ok (PyInt 42), S n))).

(** A class table in which every class is named [Tool] and its
    [__init__] stores the first positional argument under [value]. *)
Definition tool_classes : feature_decorator.class_table nat :=
  fun _ =>
    feature_decorator.mkClass "Tool"
      (fun self a w =>
         (Ok (<["value" := default PyNone (head (feature_decorator.positional a))]> self),
          w)).

(** A server with a name, a description and one metadata entry that is
    not a field name. *)
Definition cfg_region : MCPServerConfig.t :=
  MCPServerConfig.mk "https://api.example/search" "sse" (Some "search")
    (Some "Web search") {["region" := PyStr "eu"]}.

(** A server with a name, a description and no metadata. *)
Definition cfg_named : MCPServerConfig.t :=
  MCPServerConfig.mk "https://api.example/search" "sse" (Some "search")
    (Some "Web search") ∅.


(** Keyword arguments that bind [type]. *)
Definition kw_type : pydict := {["type" := PyStr "http"]}.


(** ** The configuration model *)

Section list_comprehension.

Context {A B : Type} (f : A -> B).

Lemma fold_left_snoc_map (xs : list A) (acc : list B) :
  fold_left (fun acc x => acc ++ [f x]) xs acc = acc ++ map f xs.
Proof.
  revert acc. induction xs as [|x xs IH]; intros acc; simpl.
  - by rewrite app_nil_r.
  - rewrite IH. by rewrite <- app_assoc.
Qed.

Lemma list_comprehension_map (xs : list A) :
  list_comprehension f xs = map f xs.
Proof. unfold list_comprehension. by rewrite fold_left_snoc_map. Qed.

End list_comprehension.

Lemma opt_str_truthy_true (o : option string) :
  opt_str_truthy o = true <-> exists s, o = Some s /\ s <> "".
Proof.
  destruct o as [[|a s]|]; simpl; split; try discriminate.
  - intros (s & Hs & Hne). by simplify_eq.
  - intros _. by eexists.
  - done.
  - intros (s & Hs & _). discriminate.
Qed.

Lemma dict_truthy_false (d : pydict) : dict_truthy d = false -> d = ∅.
Proof.
  unfold dict_truthy. intros H. apply bool_decide_eq_false in H.
  by destruct (decide (d = ∅)).
Qed.

(** Looking a key up in [d.update(m)]: the entry of [m] when there is one,
    else the entry of [d]. *)
Lemma lookup_dict_update (d m : pydict) (k : string) :
  dict_update d m !! k =
    match m !! k with
    | Some v => Some v
    | None => d !! k
    end.
Proof.
  unfold dict_update. destruct (m !! k) as [v|] eqn:Hm.
  - by apply lookup_union_Some_l.
  - by rewrite lookup_union_r.
Qed.

Lemma to_langdb_format_lookup (self : MCPServerConfig.t) (k : string) :
  MCPServerConfig.to_langdb_format self !! k =
    match MCPServerConfig.metadata self !! k with
    | Some v => Some v
    | None => base_format self !! k
    end.
Proof.
  unfold MCPServerConfig.to_langdb_format. fold (base_format self).
  destruct (dict_truthy (MCPServerConfig.metadata self)) eqn:Ht.
  - apply lookup_dict_update.
  - apply dict_truthy_false in Ht. rewrite Ht. by rewrite lookup_empty.
Qed.

Lemma base_format_server_url (self : MCPServerConfig.t) :
  base_format self !! "server_url" = Some (PyStr (MCPServerConfig.server_url self)).
Proof.
  unfold base_format.
  destruct (opt_str_truthy (MCPServerConfig.name self)),
           (opt_str_truthy (MCPServerConfig.description self));
    by simplify_map_eq.
Qed.

Lemma base_format_type (self : MCPServerConfig.t) :
  base_format self !! "type" = Some (PyStr (MCPServerConfig.type self)).
Proof.
  unfold base_format.
  destruct (opt_str_truthy (MCPServerConfig.name self)),
           (opt_str_truthy (MCPServerConfig.description self));
    by simplify_map_eq.
Qed.

Lemma base_format_name (self : MCPServerConfig.t) :
  is_Some (base_format self !! "name")
  <-> opt_str_truthy (MCPServerConfig.name self) = true.
Proof.
  unfold base_format.
  destruct (opt_str_truthy (MCPServerConfig.name self)),
           (opt_str_truthy (MCPServerConfig.description self));
    simplify_map_eq; split; (done || by intros [? ?]).
Qed.

Lemma base_format_description (self : MCPServerConfig.t) :
  is_Some (base_format self !! "description")
  <-> opt_str_truthy (MCPServerConfig.description self) = true.
Proof.
  unfold base_format.
  destruct (opt_str_truthy (MCPServerConfig.name self)),
           (opt_str_truthy (MCPServerConfig.description self));
    simplify_map_eq; split; (done || by intros [? ?]).
Qed.

(** C2, as amended.  The dictionary returned by [to_langdb_format] always
    has the keys [server_url] and [type]; it has the key [name] exactly
    when the [name] field is neither [None] nor empty or the metadata has
    the key [name], and likewise for [description]. *)
Theorem to_langdb_format_keys (self : MCPServerConfig.t) :
  let result := MCPServerConfig.to_langdb_format self in
  is_Some (result !! "server_url")
  /\ is_Some (result !! "type")
  /\ (is_Some (result !! "name")
      <-> opt_str_truthy (MCPServerConfig.name self) = true
          \/ is_Some (MCPServerConfig.metadata self !! "name"))
  /\ (is_Some (result !! "description")
      <-> opt_str_truthy (MCPServerConfig.description self) = true
          \/ is_Some (MCPServerConfig.metadata self !! "description")).
Proof.
  cbv zeta. rewrite !to_langdb_format_lookup.
  repeat split.
  - destruct (_ !! "server_url"); [done|].
    rewrite base_format_server_url. done.
  - destruct (_ !! "type"); [done|].
    rewrite base_format_type. done.
  - destruct (MCPServerConfig.metadata self !! "name") eqn:Hm.
    + intros _. right. done.
    + intros H. left. by apply base_format_name.
  - destruct (MCPServerConfig.metadata self !! "name") eqn:Hm.
    + done.
    + intros [H|[? H]]; [by apply base_format_name | discriminate].
  - destruct (MCPServerConfig.metadata self !! "description") eqn:Hm.
    + intros _. right. done.
    + intros H. left. by apply base_format_description.
  - destruct (MCPServerConfig.metadata self !! "description") eqn:Hm.
    + done.
    + intros [H|[? H]]; [by apply base_format_description | discriminate].
Qed.

(** C2, as stated, fails: a configuration built from valid fields whose
    [name] is [None] and whose metadata has the key [name] is formatted
    with the key [name]; the same holds for [description]. *)
Lemma to_langdb_format_name_from_metadata :
  MCPServerConfig.__init__
    (<["server_url" := PyStr "https://api.example/search"]>
    (<["type" := PyStr "sse"]>
    (<["metadata" := PyDict {["name" := PyStr "x"]}]> ∅)))
  = Ok cfg_meta_name
  /\ opt_str_truthy (MCPServerConfig.name cfg_meta_name) = false
  /\ MCPServerConfig.to_langdb_format cfg_meta_name !! "name"
     = Some (PyStr "x")
  /\ opt_str_truthy (MCPServerConfig.description cfg_meta_description) = false
  /\ MCPServerConfig.to_langdb_format cfg_meta_description !! "description"
     = Some (PyInt 1).
Proof. repeat split; vm_compute; reflexivity. Qed.



(** The constructor on arguments of the declared types. *)
Lemma init_typed_fields (u ty : string) (n d : option string) (m : pydict) :
  MCPServerConfig.__init__
    (<["server_url" := PyStr u]>
    (<["type" := PyStr ty]>
    (<["name" := py_opt_str n]>
    (<["description" := py_opt_str d]>
    (<["metadata" := PyDict m]> ∅)))))
  = Ok (MCPServerConfig.mk u ty n d m).
Proof.
  unfold MCPServerConfig.__init__, validate_required_str,
    validate_optional_str, validate_dict.
  simplify_map_eq. by destruct n, d.
Qed.





(** The constructor and [from_url] on two strings and nothing else. *)
Lemma init_required_only (u ty : string) :
  MCPServerConfig.__init__
    (<["server_url" := PyStr u]> (<["type" := PyStr ty]> ∅))
  = Ok (MCPServerConfig.mk u ty None None ∅).
Proof.
  unfold MCPServerConfig.__init__, validate_required_str,
    validate_optional_str, validate_dict.
  by simplify_map_eq.
Qed.

Lemma from_url_no_kwargs (u : string) (ty : option string) :
  MCPServerConfig.from_url u ty ∅
  = Ok (MCPServerConfig.mk u (default "sse" ty) None None ∅).
Proof.
  unfold MCPServerConfig.from_url. rewrite !lookup_empty. simpl.
  apply init_required_only.
Qed.



(** ** The collection *)

Lemma collection_add_server_run (self : loc) (server : MCPServerConfig.t)
    (st : store) :
  RemoteMCPConfig.add_server self server st =
    (Ok tt,
     mkStore (<[self := servers_of st self ++ [server]]> (servers_of st))
       (next_loc st) (log st)).
Proof. reflexivity. Qed.

Lemma collection_len_run (self : loc) (st : store) :
  RemoteMCPConfig.__len__ self st = (Ok (length (servers_of st self)), st).
Proof. reflexivity. Qed.

Lemma collection_bool_run (self : loc) (st : store) :
  RemoteMCPConfig.__bool__ self st =
    (Ok (bool_decide (0 < length (servers_of st self))), st).
Proof. reflexivity. Qed.

(** C6.  The collection's [to_langdb_format] returns the endpoints'
    formats in the order of the [servers] list, one per endpoint and
    nothing dropped, and leaves the store as it is; three endpoints
    appended to a new collection, equal or not, come back as three
    formats in the order of the appends. *)
Theorem collection_to_langdb_format_map
    (self : loc) (st : store) (a b c : MCPServerConfig.t) :
  RemoteMCPConfig.to_langdb_format self st
  = (Ok (map MCPServerConfig.to_langdb_format (servers_of st self)), st)
  /\ fst ((do l <- RemoteMCPConfig.__init__ None;
           RemoteMCPConfig.add_server l a;;
           RemoteMCPConfig.add_server l b;;
           RemoteMCPConfig.add_server l c;;
           RemoteMCPConfig.to_langdb_format l) st)
     = Ok [MCPServerConfig.to_langdb_format a;
           MCPServerConfig.to_langdb_format b;
           MCPServerConfig.to_langdb_format c].
Proof.
  split.
  - unfold RemoteMCPConfig.to_langdb_format, bind, get_servers, ret.
    by rewrite list_comprehension_map.
  - unfold RemoteMCPConfig.to_langdb_format, RemoteMCPConfig.add_server,
      RemoteMCPConfig.__init__, bind, get_servers, set_servers, alloc, ret.
    simpl. rewrite !fn_lookup_insert. reflexivity.
Qed.

(** ** The toolset *)

Lemma toolset_add_server_run (self : RemoteMCPToolset.t) (u : string)
    (ty n d : option string) (m : pydict) (st : store) :
  RemoteMCPToolset.add_server self u ty n d m st =
    (Ok tt,
     mkStore
       (<[RemoteMCPToolset.mcp_config self :=
            servers_of st (RemoteMCPToolset.mcp_config self)
            ++ [MCPServerConfig.mk u (default "sse" ty) n d m]]>
          (servers_of st))
       (next_loc st)
       (log st ++ [(INFO, "Added remote MCP server: " +:+ u
                          +:+ " (type: " +:+ default "sse" ty +:+ ")")])).
Proof.
  unfold RemoteMCPToolset.add_server, bind, lift.
  rewrite init_typed_fields. reflexivity.
Qed.

Lemma opt_config_truthy_run (o : option nat) (st : store) :
  opt_config_truthy o st =
    (Ok match o with
        | None => false
        | Some l => bool_decide (0 < length (servers_of st l))
        end, st).
Proof. by destruct o. Qed.

(** The constructor returns a toolset on every input. *)
Lemma toolset_init_returns (server_url server_type server_name
    server_description : option string) (mcp_config : option nat)
    (tool_filter : option RemoteMCPToolset.tool_filter_t) (st : store) :
  exists st',
    RemoteMCPToolset.__init__ server_url server_type server_name
      server_description mcp_config tool_filter st
    = (Ok (RemoteMCPToolset.mk tool_filter (chosen_config mcp_config st)), st').
Proof.
  unfold RemoteMCPToolset.__init__, bind at 1.
  rewrite opt_config_truthy_run. unfold chosen_config.
  destruct mcp_config as [l|]; simpl.
  - destruct (bool_decide (0 < length (servers_of st l))); simpl;
      unfold bind; simpl;
      destruct (opt_str_truthy server_url);
      rewrite ?toolset_add_server_run; simpl; by eexists.
  - unfold bind; simpl; destruct (opt_str_truthy server_url);
      rewrite ?toolset_add_server_run; simpl; by eexists.
Qed.

Lemma add_server_config_run (self : RemoteMCPToolset.t)
    (c : MCPServerConfig.t) (st : store) :
  RemoteMCPToolset.add_server_config self c st =
    (Ok tt,
     mkStore
       (<[RemoteMCPToolset.mcp_config self :=
            servers_of st (RemoteMCPToolset.mcp_config self) ++ [c]]>
          (servers_of st))
       (next_loc st)
       (log st ++ [(INFO, "Added remote MCP server: "
                          +:+ MCPServerConfig.server_url c)])).
Proof. reflexivity. Qed.

Lemma add_server_configs_returns (self : RemoteMCPToolset.t)
    (configs : list MCPServerConfig.t) (st : store) :
  exists st',
    add_server_configs self configs st = (Ok tt, st')
    /\ servers_of st' (RemoteMCPToolset.mcp_config self)
       = servers_of st (RemoteMCPToolset.mcp_config self) ++ configs.
Proof.
  revert st. induction configs as [|c configs IH]; intros st; simpl.
  - exists st. by rewrite app_nil_r.
  - unfold bind. rewrite add_server_config_run.
    destruct (IH (mkStore
       (<[RemoteMCPToolset.mcp_config self :=
            servers_of st (RemoteMCPToolset.mcp_config self) ++ [c]]>
          (servers_of st))
       (next_loc st)
       (log st ++ [(INFO, "Added remote MCP server: "
                          +:+ MCPServerConfig.server_url c)])))
      as (st' & Hrun & Hservers).
    exists st'. split; [exact Hrun|].
    rewrite Hservers. simpl. rewrite fn_lookup_insert.
    by rewrite <- app_assoc.
Qed.

(** C1.  [get_tools] returns the empty list for every toolset, in every
    store, with or without a context; it writes one record to the log and
    leaves the collections as they are.  In particular it returns the
    empty list on a toolset built by the constructor from any arguments
    and then given any number of further endpoints. *)
Theorem get_tools_returns_empty
    (self : RemoteMCPToolset.t) (readonly_context : option nat) (st : store)
    (server_url server_type server_name server_description : option string)
    (mcp_config : option nat)
    (tool_filter : option RemoteMCPToolset.tool_filter_t)
    (configs : list MCPServerConfig.t) :
  RemoteMCPToolset.get_tools self readonly_context st =
    (Ok [],
     mkStore (servers_of st) (next_loc st)
       (log st ++
        [(INFO, "RemoteMCPToolset configured with "
                +:+ pretty (length (servers_of st (RemoteMCPToolset.mcp_config self)))
                +:+ " remote servers")]))
  /\ fst ((do t <- RemoteMCPToolset.__init__ server_url server_type
                     server_name server_description mcp_config tool_filter;
           add_server_configs t configs;;
           RemoteMCPToolset.get_tools t readonly_context) st)
     = Ok [].
Proof.
  split; [reflexivity|].
  unfold bind at 1.
  destruct (toolset_init_returns server_url server_type server_name
              server_description mcp_config tool_filter st) as [st1 ->].
  unfold bind at 1.
  destruct (add_server_configs_returns
              (RemoteMCPToolset.mk tool_filter (chosen_config mcp_config st))
              configs st1) as (st2 & -> & _).
  reflexivity.
Qed.

(** C4, as amended.  When a non-empty [server_url] and a collection are
    both supplied, the toolset's collection holds the endpoints of the
    supplied collection followed by the endpoint built from the
    single-endpoint arguments; a supplied collection that is not empty is
    itself the toolset's collection, and so is extended in place. *)
Theorem toolset_init_appends_to_supplied
    (server_url : string) (server_type server_name server_description
    : option string) (l : nat)
    (tool_filter : option RemoteMCPToolset.tool_filter_t) (st : store) :
  server_url <> "" ->
  exists self st',
    RemoteMCPToolset.__init__ (Some server_url) server_type server_name
      server_description (Some l) tool_filter st = (Ok self, st')
    /\ servers_of st' (RemoteMCPToolset.mcp_config self)
       = servers_of st l
         ++ [MCPServerConfig.mk server_url (default "sse" server_type)
               server_name server_description ∅]
    /\ (servers_of st l <> [] -> RemoteMCPToolset.mcp_config self = l).
Proof.
  intros Hurl.
  assert (opt_str_truthy (Some server_url) = true) as Htruthy.
  { apply opt_str_truthy_true. by exists server_url. }
  unfold RemoteMCPToolset.__init__, bind at 1.
  rewrite opt_config_truthy_run, Htruthy.
  destruct (servers_of st l) as [|c cs] eqn:Hl; simpl.
  - unfold bind; simpl. rewrite toolset_add_server_run; simpl.
    eexists _, _. split; [reflexivity|]. simpl.
    rewrite !fn_lookup_insert. done.
  - unfold bind; simpl. rewrite toolset_add_server_run; simpl.
    eexists _, _. split; [reflexivity|]. simpl.
    rewrite fn_lookup_insert, Hl. done.
Qed.

Lemma toolset_init_appends_to_supplied_witness :
  "https://api.example/files" <> ""
  /\ exists self st',
    RemoteMCPToolset.__init__ (Some "https://api.example/files")
      (Some "http") (Some "files") None (Some 0) None store_one_server
    = (Ok self, st')
    /\ servers_of st' (RemoteMCPToolset.mcp_config self)
       = servers_of store_one_server 0 ++ [cfg_files]
    /\ (servers_of store_one_server 0 <> []
        -> RemoteMCPToolset.mcp_config self = 0).
Proof.
  split; [discriminate|].
  apply (toolset_init_appends_to_supplied "https://api.example/files"
           (Some "http") (Some "files") None 0 None store_one_server).
  discriminate.
Defined.

(** C4, as stated, fails: built from a URL and a collection that holds
    one endpoint, the toolset refers to the supplied collection, and that
    collection now holds a second endpoint, the one described by the
    single-endpoint arguments. *)
Lemma toolset_init_both_supplied_adds_endpoint :
  let run :=
    RemoteMCPToolset.__init__ (Some "https://api.example/files")
      (Some "http") (Some "files") None (Some 0) None store_one_server in
  servers_of store_one_server 0 = [cfg_search]
  /\ fst run = Ok (RemoteMCPToolset.mk None 0)
  /\ servers_of (snd run) 0 = [cfg_search; cfg_files]
  /\ cfg_files ∈ servers_of (snd run) 0
  /\ servers_of (snd run) 0 <> servers_of store_one_server 0.
Proof.
  cbv zeta.
  assert (servers_of (snd (RemoteMCPToolset.__init__
            (Some "https://api.example/files") (Some "http") (Some "files")
            None (Some 0) None store_one_server)) 0
          = [cfg_search; cfg_files]) as Hafter
    by (vm_compute; reflexivity).
  split; [reflexivity|]. split; [vm_compute; reflexivity|].
  split; [exact Hafter|]. rewrite Hafter.
  split; [set_solver|discriminate].
Qed.

(** C9.  For a collection and for a toolset, [__bool__] returns [True]
    exactly when [__len__] returns a number greater than [0].  A new
    collection, and a toolset built with neither a URL nor a collection,
    has length [0] and is falsy; after one endpoint is added, by any of
    the adding methods, it has length [1] and is truthy. *)
Theorem emptiness_matches_length
    (c : nat) (t : RemoteMCPToolset.t) (st : store)
    (server : MCPServerConfig.t) (server_url : string)
    (server_type name description : option string) (metadata : pydict)
    (tool_filter : option RemoteMCPToolset.tool_filter_t) :
  (exists n,
     RemoteMCPConfig.__len__ c st = (Ok n, st)
     /\ RemoteMCPConfig.__bool__ c st = (Ok (bool_decide (0 < n)), st))
  /\ (exists n,
        RemoteMCPToolset.__len__ t st = (Ok n, st)
        /\ RemoteMCPToolset.__bool__ t st = (Ok (bool_decide (0 < n)), st))
  /\ fst ((do c <- RemoteMCPConfig.__init__ None;
           collection_len_bool c) st) = Ok (0, false)
  /\ fst ((do c <- RemoteMCPConfig.__init__ None;
           RemoteMCPConfig.add_server c server;;
           collection_len_bool c) st) = Ok (1, true)
  /\ fst ((do c <- RemoteMCPConfig.__init__ None;
           RemoteMCPConfig.add_server_url c server_url server_type ∅;;
           collection_len_bool c) st) = Ok (1, true)
  /\ fst ((do t <- RemoteMCPToolset.__init__ None server_type name
                     description None tool_filter;
           toolset_len_bool t) st) = Ok (0, false)
  /\ fst ((do t <- RemoteMCPToolset.__init__ None server_type name
                     description None tool_filter;
           RemoteMCPToolset.add_server t server_url server_type name
             description metadata;;
           toolset_len_bool t) st) = Ok (1, true)
  /\ fst ((do t <- RemoteMCPToolset.__init__ None server_type name
                     description None tool_filter;
           RemoteMCPToolset.add_server_config t server;;
           toolset_len_bool t) st) = Ok (1, true).
Proof.
  split; [|split].
  - exists (length (servers_of st c)). by split.
  - exists (length (servers_of st (RemoteMCPToolset.mcp_config t))). by split.
  - repeat split.
    + unfold collection_len_bool, bind. simpl. by rewrite fn_lookup_insert.
    + unfold collection_len_bool, bind. simpl. by rewrite !fn_lookup_insert.
    + unfold collection_len_bool, RemoteMCPConfig.add_server_url, bind, lift.
      simpl. rewrite from_url_no_kwargs. simpl.
      by rewrite !fn_lookup_insert.
    + unfold toolset_len_bool, bind. simpl. by rewrite fn_lookup_insert.
    + unfold toolset_len_bool, bind at 1. simpl. unfold bind at 1.
      rewrite toolset_add_server_run. unfold bind. simpl.
      by rewrite !fn_lookup_insert.
    + unfold toolset_len_bool, bind. simpl. by rewrite !fn_lookup_insert.
Qed.

(** ** The feature decorators *)

Section decorator_properties.

Import feature_decorator.

Context {U : Type}.
Context (label default_message : string) (message : option string).

Lemma warnings_warn_run (msg : string) (w : world U) :
  warnings_warn msg UserWarning w = (Ok tt, warned msg w).
Proof. reflexivity. Qed.

(** What decorating a callable returns, and what a call of it does. *)
Lemma decorate_callable_run (f : callable U) (classes : class_table U) :
  exists wrapper,
    _make_feature_decorator label default_message message (ObjCallable f)
      classes = (Ok (ObjCallable wrapper), classes)
    /\ fn_name wrapper = Some (default "wrapper" (fn_name f))
    /\ forall (a : args) (w : world U),
         fn_call wrapper a w
         = fn_call f a (warned (warning_for label default_message message classes
                       (ObjCallable f)) w).
Proof.
  eexists. split; [reflexivity|]. split; [reflexivity|].
  intros a w. reflexivity.
Qed.



(** C8.  Decorating a callable that is not a class returns a wrapper, and
    a call of the wrapper on any arguments is a call of the callable on
    the same arguments in the world where one more warning, of category
    [UserWarning] and text [[LABEL] name: message], has been issued: the
    result is the callable's.  For a callable that does not touch the
    warnings, the call issues exactly that one warning and returns what
    the callable returns on those arguments. *)
Theorem wrapper_warns_then_delegates (f : callable U)
    (classes : class_table U) (g : args -> U -> result pyval * U)
    (name : option string) (tyname : string) :
  (exists wrapper,
     _make_feature_decorator label default_message message (ObjCallable f)
       classes = (Ok (ObjCallable wrapper), classes)
     /\ forall (a : args) (w : world U),
          fn_call wrapper a w
          = fn_call f a
              (warned (warning_text label
                         (default (fn_type_name f) (fn_name f))
                         (default default_message message)) w))
  /\ (exists wrapper,
        _make_feature_decorator label default_message message
          (ObjCallable (mkCallable name tyname (on_user g))) classes
        = (Ok (ObjCallable wrapper), classes)
        /\ forall (a : args) (w : world U),
             fn_call wrapper a w
             = (fst (g a (user w)),
                mkWorld
                  (issued w ++
                   [(UserWarning,
                     "[" +:+ upper label +:+ "] " +:+ default tyname name
                     +:+ ": " +:+ default default_message message)])
                  (snd (g a (user w))))).
Proof.
  split.
  - destruct (decorate_callable_run f classes) as (wr & Hdec & _ & Hcall).
    exists wr. split; [exact Hdec|]. intros a w. by rewrite Hcall.
  - destruct (decorate_callable_run (mkCallable name tyname (on_user g))
                classes) as (wr & Hdec & _ & Hcall).
    exists wr. split; [exact Hdec|]. intros a w. rewrite Hcall.
    unfold warning_for, warning_text, on_user, warned. simpl.
    by destruct (g a (user w)).
Qed.



End decorator_properties.

(** [answer] under [working_in_progress] with a message: the wrapper keeps
    the name, and a call issues the warning, counts and returns [42]. *)
Example working_in_progress_answer :
  match feature_decorator.as_callable
          (fst (feature_decorator.working_in_progress (Some "not ready")
                  (feature_decorator.ObjCallable answer) tool_classes)) with
  | Some wrapper =>
      feature_decorator.fn_name wrapper = Some "answer"
      /\ feature_decorator.fn_call wrapper
           (feature_decorator.mkArgs [PyInt 1] ∅)
           (feature_decorator.mkWorld [] 0)
         = (Ok (PyInt 42),
            feature_decorator.mkWorld
              [(feature_decorator.UserWarning, "[WIP] answer: not ready")] 1)
  | None => False
  end.
Proof. vm_compute. split; reflexivity. Qed.

(** [Tool] under [experimental] with the default message: constructing
    an instance issues the warning and runs the class's [__init__]. *)
Example experimental_tool :
  feature_decorator.construct
    (snd (feature_decorator.experimental None
            (feature_decorator.ObjClass 3) tool_classes)) 3
    (feature_decorator.mkArgs [PyInt 5] ∅)
    (feature_decorator.mkWorld [] 0)
  = (Ok (feature_decorator.mkInstance 3 {["value" := PyInt 5]}),
     feature_decorator.mkWorld
       [(feature_decorator.UserWarning,
         "[EXPERIMENTAL] Tool: This feature is experimental and may change or be removed in future versions without notice. It may introduce breaking changes at any time.")]
       0).
Proof. vm_compute. reflexivity. Qed.

(** * Further properties *)

(** ** [to_langdb_format] and the constructors *)

Lemma base_format_name_value (self : MCPServerConfig.t) :
  base_format self !! "name"
  = if opt_str_truthy (MCPServerConfig.name self)
    then PyStr <$> MCPServerConfig.name self else None.
Proof.
  unfold base_format.
  destruct (MCPServerConfig.name self) as [[|a n]|],
           (opt_str_truthy (MCPServerConfig.description self));
    by simplify_map_eq.
Qed.

Lemma base_format_description_value (self : MCPServerConfig.t) :
  base_format self !! "description"
  = if opt_str_truthy (MCPServerConfig.description self)
    then PyStr <$> MCPServerConfig.description self else None.
Proof.
  unfold base_format.
  destruct (MCPServerConfig.description self) as [[|a n]|],
           (opt_str_truthy (MCPServerConfig.name self));
    by simplify_map_eq.
Qed.

Lemma base_format_other (self : MCPServerConfig.t) (k : string) :
  k <> "server_url" -> k <> "type" -> k <> "name" -> k <> "description" ->
  base_format self !! k = None.
Proof.
  intros H1 H2 H3 H4. unfold base_format.
  destruct (opt_str_truthy (MCPServerConfig.name self)),
           (opt_str_truthy (MCPServerConfig.description self));
    by simplify_map_eq.
Qed.

(** X1.  When the metadata binds none of the four field names, the
    formatted dictionary holds the URL under [server_url] and the
    connection type under [type], as strings, and it holds the name
    (the description) under [name] ([description]) when that field is
    neither [None] nor empty, and has no such key otherwise. *)
Theorem to_langdb_format_base_fields (self : MCPServerConfig.t) :
  MCPServerConfig.metadata self !! "server_url" = None ->
  MCPServerConfig.metadata self !! "type" = None ->
  MCPServerConfig.metadata self !! "name" = None ->
  MCPServerConfig.metadata self !! "description" = None ->
  let result := MCPServerConfig.to_langdb_format self in
  result !! "server_url" = Some (PyStr (MCPServerConfig.server_url self))
  /\ result !! "type" = Some (PyStr (MCPServerConfig.type self))
  /\ result !! "name"
     = (if opt_str_truthy (MCPServerConfig.name self)
        then PyStr <$> MCPServerConfig.name self else None)
  /\ result !! "description"
     = (if opt_str_truthy (MCPServerConfig.description self)
        then PyStr <$> MCPServerConfig.description self else None).
Proof.
  intros Hu Ht Hn Hd. cbv zeta. rewrite !to_langdb_format_lookup.
  rewrite Hu, Ht, Hn, Hd.
  rewrite base_format_server_url, base_format_type,
    base_format_name_value, base_format_description_value.
  done.
Qed.

Lemma to_langdb_format_base_fields_witness :
  let result := MCPServerConfig.to_langdb_format cfg_region in
  result !! "server_url" = Some (PyStr "https://api.example/search")
  /\ result !! "type" = Some (PyStr "sse")
  /\ result !! "name" = Some (PyStr "search")
  /\ result !! "description" = Some (PyStr "Web search").
Proof.
  apply (to_langdb_format_base_fields cfg_region); reflexivity.
Defined.

(** X2.  Under a key that is none of the four field names the formatted
    dictionary holds what the metadata holds, and nothing when the
    metadata has no such key: no other key is ever added. *)
Theorem to_langdb_format_other_keys (self : MCPServerConfig.t) (k : string) :
  k <> "server_url" -> k <> "type" -> k <> "name" -> k <> "description" ->
  MCPServerConfig.to_langdb_format self !! k
  = MCPServerConfig.metadata self !! k.
Proof.
  intros H1 H2 H3 H4. rewrite to_langdb_format_lookup.
  destruct (MCPServerConfig.metadata self !! k); [done|].
  by apply base_format_other.
Qed.

Lemma to_langdb_format_other_keys_witness :
  MCPServerConfig.to_langdb_format cfg_region !! "region"
  = MCPServerConfig.metadata cfg_region !! "region"
  /\ MCPServerConfig.to_langdb_format cfg_region !! "zone"
     = MCPServerConfig.metadata cfg_region !! "zone".
Proof.
  split.
  - apply (to_langdb_format_other_keys cfg_region "region"); discriminate.
  - apply (to_langdb_format_other_keys cfg_region "zone"); discriminate.
Defined.

Lemma dict_truthy_empty : dict_truthy ∅ = false.
Proof. unfold dict_truthy. apply bool_decide_eq_false. by intros H. Qed.

(** X3.  Formatting then constructing gives the configuration back: for
    a configuration with no metadata whose name and description are not
    the empty string, the constructor applied to the formatted dictionary
    returns that configuration. *)
Theorem init_to_langdb_format_round_trip (self : MCPServerConfig.t) :
  MCPServerConfig.metadata self = ∅ ->
  MCPServerConfig.name self <> Some "" ->
  MCPServerConfig.description self <> Some "" ->
  MCPServerConfig.__init__ (MCPServerConfig.to_langdb_format self) = Ok self.
Proof.
  destruct self as [u ty n d m]. simpl. intros -> Hn Hd.
  unfold MCPServerConfig.to_langdb_format. simpl.
  rewrite dict_truthy_empty.
  unfold MCPServerConfig.__init__, validate_required_str,
    validate_optional_str, validate_dict.
  destruct n as [[|a n]|]; [done| |]; (destruct d as [[|b d]|]; [done| |]);
    simpl; by simplify_map_eq.
Qed.

Lemma init_to_langdb_format_round_trip_witness :
  MCPServerConfig.__init__ (MCPServerConfig.to_langdb_format cfg_named)
  = Ok cfg_named.
Proof.
  apply (init_to_langdb_format_round_trip cfg_named);
    [reflexivity | discriminate | discriminate].
Defined.

(** X4.  [from_url] cannot be given the keyword [type]: whatever the
    other arguments, the call raises [TypeError] and returns no
    configuration (the connection type goes in [server_type]). *)
Theorem from_url_type_keyword_raises (server_url : string)
    (server_type : option string) (kwargs : pydict) :
  is_Some (kwargs !! "type") ->
  exists msg,
    MCPServerConfig.from_url server_url server_type kwargs
    = Raise (TypeError msg).
Proof.
  intros Hty. unfold MCPServerConfig.from_url.
  repeat case_bool_decide; try contradiction; by eexists.
Qed.

Lemma from_url_type_keyword_raises_witness :
  exists msg,
    MCPServerConfig.from_url "https://api.example/search" None kw_type
    = Raise (TypeError msg).
Proof.
  apply (from_url_type_keyword_raises "https://api.example/search" None
           kw_type).
  vm_compute. by eexists.
Defined.

(** What a successful [from_url] tells about its arguments and result. *)
Lemma from_url_ok_inv (server_url : string) (server_type : option string)
    (kwargs : pydict) (cfg : MCPServerConfig.t) :
  MCPServerConfig.from_url server_url server_type kwargs = Ok cfg ->
  MCPServerConfig.server_url cfg = server_url
  /\ MCPServerConfig.type cfg = default "sse" server_type
  /\ validate_optional_str "name" kwargs = inl (MCPServerConfig.name cfg)
  /\ validate_optional_str "description" kwargs
     = inl (MCPServerConfig.description cfg)
  /\ validate_dict "metadata" kwargs = inl (MCPServerConfig.metadata cfg)
  /\ kwargs !! "server_url" = None
  /\ kwargs !! "server_type" = None
  /\ kwargs !! "type" = None.
Proof.
  unfold MCPServerConfig.from_url.
  repeat case_bool_decide; try discriminate.
  assert (forall k, ¬ is_Some (kwargs !! k) -> kwargs !! k = None) as Hnone.
  { intros k Hk. destruct (kwargs !! k); [|done]. destruct Hk. by eexists. }
  unfold MCPServerConfig.__init__.
  set (kw := <["server_url" := PyStr server_url]>
               (<["type" := PyStr (default "sse" server_type)]> kwargs)).
  assert (validate_required_str "server_url" kw = inl server_url) as ->.
  { unfold validate_required_str, kw. by rewrite lookup_insert_eq. }
  assert (validate_required_str "type" kw = inl (default "sse" server_type))
    as ->.
  { unfold validate_required_str, kw.
    by rewrite lookup_insert_ne, lookup_insert_eq. }
  assert (validate_optional_str "name" kw
          = validate_optional_str "name" kwargs) as ->.
  { unfold validate_optional_str, kw. by rewrite !lookup_insert_ne. }
  assert (validate_optional_str "description" kw
          = validate_optional_str "description" kwargs) as ->.
  { unfold validate_optional_str, kw. by rewrite !lookup_insert_ne. }
  assert (validate_dict "metadata" kw = validate_dict "metadata" kwargs)
    as ->.
  { unfold validate_dict, kw. by rewrite !lookup_insert_ne. }
  destruct (validate_optional_str "name" kwargs) as [n|en];
    destruct (validate_optional_str "description" kwargs) as [d|ed];
    destruct (validate_dict "metadata" kwargs) as [m|em];
    simpl; intros Hinit; try discriminate;
    inversion Hinit; subst; simpl; repeat split; auto.
Qed.



(** X6.  A configuration made by [from_url] from a URL and an optional
    connection type alone is formatted as the dictionary with exactly the
    two keys [server_url] and [type]. *)
Theorem from_url_to_langdb_format (server_url : string)
    (server_type : option string) :
  match MCPServerConfig.from_url server_url server_type ∅ with
  | Ok cfg =>
      MCPServerConfig.to_langdb_format cfg
      = <["type" := PyStr (default "sse" server_type)]>
          {["server_url" := PyStr server_url]}
      /\ dom (MCPServerConfig.to_langdb_format cfg)
         = ({["server_url"; "type"]} : gset string)
  | Raise _ => False
  end.
Proof.
  rewrite from_url_no_kwargs.
  unfold MCPServerConfig.to_langdb_format. simpl.
  rewrite dict_truthy_empty. split; [done|].
  rewrite dom_insert_L, dom_insert_L, dom_empty_L. set_solver.
Qed.

(** ** The collection, further *)

(** X7.  [add_server_url] either raises what [from_url] raises and leaves
    the store as it was, or appends to the collection exactly one
    configuration, the one [from_url] returns, whose URL and connection
    type are the arguments ([sse] when no type is given); it writes
    nothing to the log. *)
Theorem add_server_url_outcome (self : nat) (server_url : string)
    (server_type : option string) (kwargs : pydict) (st : store) :
  match RemoteMCPConfig.add_server_url self server_url server_type kwargs st
  with
  | (Ok _, st') =>
      exists cfg,
        MCPServerConfig.from_url server_url server_type kwargs = Ok cfg
        /\ MCPServerConfig.server_url cfg = server_url
        /\ MCPServerConfig.type cfg = default "sse" server_type
        /\ servers_of st' self = servers_of st self ++ [cfg]
        /\ log st' = log st
  | (Raise e, st') =>
      MCPServerConfig.from_url server_url server_type kwargs = Raise e
      /\ st' = st
  end.
Proof.
  unfold RemoteMCPConfig.add_server_url, bind, lift.
  destruct (MCPServerConfig.from_url server_url server_type kwargs)
    as [cfg|e] eqn:Hfrom; [|done].
  rewrite collection_add_server_run.
  destruct (from_url_ok_inv _ _ _ _ Hfrom) as (Hu & Ht & _).
  exists cfg. simpl. rewrite fn_lookup_insert. done.
Qed.

(** X8.  [add_server] only appends: an entry the collection already has
    stays at its index, and a collection at another address is left as it
    is. *)
Theorem collection_add_server_frame (self other i : nat)
    (server old : MCPServerConfig.t) (st : store) :
  self <> other ->
  servers_of st self !! i = Some old ->
  let st' := snd (RemoteMCPConfig.add_server self server st) in
  servers_of st' self !! i = Some old
  /\ servers_of st' self !! length (servers_of st self) = Some server
  /\ servers_of st' other = servers_of st other.
Proof.
  intros Hne Hold. cbv zeta. rewrite collection_add_server_run. simpl.
  rewrite fn_lookup_insert, fn_lookup_insert_ne by done.
  split; [by apply lookup_app_l_Some|]. split; [|done].
  rewrite lookup_app_r by done. by rewrite Nat.sub_diag.
Qed.

Lemma collection_add_server_frame_witness :
  let st' := snd (RemoteMCPConfig.add_server 0 cfg_files store_one_server) in
  servers_of st' 0 !! 0 = Some cfg_search
  /\ servers_of st' 0 !! length (servers_of store_one_server 0)
     = Some cfg_files
  /\ servers_of st' 1 = servers_of store_one_server 1.
Proof.
  apply (collection_add_server_frame 0 1 0 cfg_files cfg_search
           store_one_server); [discriminate | reflexivity].
Defined.

(** X9.  A collection built from a list of configurations has the
    length of the list, is truthy exactly when the list is not empty, and
    is formatted as the formats of the list in order; building it leaves
    the collections that exist as they are. *)
Theorem collection_init_servers (servers : list MCPServerConfig.t)
    (other : nat) (st : store) :
  other < next_loc st ->
  fst ((do c <- RemoteMCPConfig.__init__ (Some servers);
        do n <- RemoteMCPConfig.__len__ c;
        do b <- RemoteMCPConfig.__bool__ c;
        do p <- RemoteMCPConfig.to_langdb_format c;
        ret (n, b, p)) st)
  = Ok (length servers,
        match servers with [] => false | _ :: _ => true end,
        map MCPServerConfig.to_langdb_format servers)
  /\ servers_of (snd (RemoteMCPConfig.__init__ (Some servers) st)) other
     = servers_of st other.
Proof.
  intros Hother. split.
  - unfold RemoteMCPConfig.__init__, RemoteMCPConfig.__len__,
      RemoteMCPConfig.__bool__, RemoteMCPConfig.to_langdb_format,
      bind, alloc, get_servers, ret.
    simpl. rewrite !fn_lookup_insert, list_comprehension_map.
    by destruct servers.
  - simpl. rewrite fn_lookup_insert_ne by lia. done.
Qed.

Lemma collection_init_servers_witness :
  fst ((do c <- RemoteMCPConfig.__init__ (Some [cfg_search; cfg_files]);
        do n <- RemoteMCPConfig.__len__ c;
        do b <- RemoteMCPConfig.__bool__ c;
        do p <- RemoteMCPConfig.to_langdb_format c;
        ret (n, b, p)) store_one_server)
  = Ok (2, true,
        map MCPServerConfig.to_langdb_format [cfg_search; cfg_files])
  /\ servers_of
       (snd (RemoteMCPConfig.__init__ (Some [cfg_search; cfg_files])
               store_one_server)) 0
     = servers_of store_one_server 0.
Proof.
  apply (collection_init_servers [cfg_search; cfg_files] 0 store_one_server).
  simpl. lia.
Defined.

(** ** The toolset, further *)

(** The constructor, step by step: the collection is chosen, then the
    endpoint of the single-endpoint arguments is added when the URL is
    neither [None] nor empty. *)
Lemma toolset_init_run (server_url server_type server_name
    server_description : option string) (mcp_config : option nat)
    (tool_filter : option RemoteMCPToolset.tool_filter_t) (st : store) :
  RemoteMCPToolset.__init__ server_url server_type server_name
    server_description mcp_config tool_filter st
  = let self := RemoteMCPToolset.mk tool_filter (chosen_config mcp_config st) in
    let st1 := store_with_config mcp_config st in
    if opt_str_truthy server_url
    then (Ok self,
          snd (RemoteMCPToolset.add_server self (default "" server_url)
                 (Some (default "sse" server_type)) server_name
                 server_description ∅ st1))
    else (Ok self, st1).
Proof.
  unfold RemoteMCPToolset.__init__, bind at 1.
  rewrite opt_config_truthy_run.
  unfold chosen_config, store_with_config.
  destruct mcp_config as [l|]; simpl.
  - destruct (bool_decide (0 < length (servers_of st l))); simpl;
      unfold bind; simpl;
      destruct (opt_str_truthy server_url);
      rewrite ?toolset_add_server_run; reflexivity.
  - unfold bind; simpl; destruct (opt_str_truthy server_url);
      rewrite ?toolset_add_server_run; reflexivity.
Qed.

Lemma get_mcp_servers_config_run (self : RemoteMCPToolset.t) (st : store) :
  RemoteMCPToolset.get_mcp_servers_config self st
  = (Ok (map MCPServerConfig.to_langdb_format
           (servers_of st (RemoteMCPToolset.mcp_config self))), st).
Proof.
  unfold RemoteMCPToolset.get_mcp_servers_config,
    RemoteMCPConfig.to_langdb_format, bind, get_servers, ret.
  by rewrite list_comprehension_map.
Qed.

(** The servers of the chosen collection, right after it is chosen, are
    the servers of the supplied collection, or none. *)
Lemma chosen_config_servers (mcp_config : option nat) (st : store) :
  servers_of (store_with_config mcp_config st) (chosen_config mcp_config st)
  = match mcp_config with
    | None => []
    | Some l => servers_of st l
    end.
Proof.
  unfold store_with_config, chosen_config.
  destruct mcp_config as [l|]; simpl.
  - case_bool_decide as Hlen; [done|].
    simpl. rewrite fn_lookup_insert.
    destruct (servers_of st l); [done|]. simpl in Hlen. lia.
  - by rewrite fn_lookup_insert.
Qed.

(** X10.  After [add_server], and after [add_server_config], the payload
    returned by [get_mcp_servers_config] is the payload as it was,
    followed by the format of the one added endpoint; [add_server] raises
    on no arguments. *)
Theorem toolset_add_then_payload (self : RemoteMCPToolset.t)
    (server_url : string) (server_type name description : option string)
    (metadata : pydict) (server_config : MCPServerConfig.t) (st : store) :
  fst ((RemoteMCPToolset.add_server self server_url server_type name
          description metadata;;
        RemoteMCPToolset.get_mcp_servers_config self) st)
  = Ok (map MCPServerConfig.to_langdb_format
          (servers_of st (RemoteMCPToolset.mcp_config self))
        ++ [MCPServerConfig.to_langdb_format
              (MCPServerConfig.mk server_url (default "sse" server_type)
                 name description metadata)])
  /\ fst ((RemoteMCPToolset.add_server_config self server_config;;
           RemoteMCPToolset.get_mcp_servers_config self) st)
     = Ok (map MCPServerConfig.to_langdb_format
             (servers_of st (RemoteMCPToolset.mcp_config self))
           ++ [MCPServerConfig.to_langdb_format server_config]).
Proof.
  split; unfold bind.
  - rewrite toolset_add_server_run, get_mcp_servers_config_run. simpl.
    by rewrite fn_lookup_insert, map_app.
  - rewrite add_server_config_run, get_mcp_servers_config_run. simpl.
    by rewrite fn_lookup_insert, map_app.
Qed.

(** X11.  Adding a list of configurations one by one raises nothing,
    makes the length grow by the length of the list, and puts their
    formats, in order, after the payload as it was. *)
Theorem add_server_configs_len_payload (self : RemoteMCPToolset.t)
    (configs : list MCPServerConfig.t) (st : store) :
  fst ((add_server_configs self configs;;
        do n <- RemoteMCPToolset.__len__ self;
        do p <- RemoteMCPToolset.get_mcp_servers_config self;
        ret (n, p)) st)
  = Ok (length (servers_of st (RemoteMCPToolset.mcp_config self))
        + length configs,
        map MCPServerConfig.to_langdb_format
          (servers_of st (RemoteMCPToolset.mcp_config self))
        ++ map MCPServerConfig.to_langdb_format configs).
Proof.
  unfold bind at 1.
  destruct (add_server_configs_returns self configs st)
    as (st' & -> & Hservers).
  unfold bind at 1. unfold RemoteMCPToolset.__len__.
  rewrite collection_len_run. unfold bind.
  rewrite get_mcp_servers_config_run. simpl.
  by rewrite Hservers, length_app, map_app.
Qed.

(** X12.  Two toolsets built without a collection do not share one: an
    endpoint added to the first is not seen by the second. *)
Theorem default_toolsets_do_not_share
    (server_type name description : option string)
    (tool_filter : option RemoteMCPToolset.tool_filter_t)
    (server_config : MCPServerConfig.t) (st : store) :
  fst ((do t1 <- RemoteMCPToolset.__init__ None server_type name description
                   None tool_filter;
        do t2 <- RemoteMCPToolset.__init__ None server_type name description
                   None tool_filter;
        RemoteMCPToolset.add_server_config t1 server_config;;
        do n1 <- RemoteMCPToolset.__len__ t1;
        do n2 <- RemoteMCPToolset.__len__ t2;
        ret (n1, n2)) st)
  = Ok (1, 0).
Proof.
  unfold bind at 1. rewrite toolset_init_run. simpl.
  repeat (rewrite fn_lookup_insert || rewrite fn_lookup_insert_ne by lia).
  reflexivity.
Qed.

Ltac fn_lookup :=
  repeat (rewrite fn_lookup_insert || rewrite fn_lookup_insert_ne by lia).

(** X13.  Two toolsets built from the same collection, when it is not
    empty, share it: an endpoint added through the first is seen through
    the second and in the collection itself. *)
Theorem toolsets_share_supplied_collection (l : nat)
    (server_type name description : option string)
    (tool_filter : option RemoteMCPToolset.tool_filter_t)
    (server_config : MCPServerConfig.t) (st : store) :
  servers_of st l <> [] ->
  fst ((do t1 <- RemoteMCPToolset.__init__ None server_type name description
                   (Some l) tool_filter;
        do t2 <- RemoteMCPToolset.__init__ None server_type name description
                   (Some l) tool_filter;
        RemoteMCPToolset.add_server_config t1 server_config;;
        do n2 <- RemoteMCPToolset.__len__ t2;
        do n <- RemoteMCPConfig.__len__ l;
        do p <- RemoteMCPToolset.get_mcp_servers_config t2;
        ret (n2, n, p)) st)
  = Ok (S (length (servers_of st l)), S (length (servers_of st l)),
        map MCPServerConfig.to_langdb_format
          (servers_of st l ++ [server_config])).
Proof.
  intros Hne.
  destruct (servers_of st l) as [|c cs] eqn:Hl; [done|].
  unfold bind at 1. rewrite toolset_init_run.
  unfold chosen_config, store_with_config. rewrite Hl. simpl.
  unfold bind at 1. rewrite toolset_init_run.
  unfold chosen_config, store_with_config. rewrite Hl. simpl.
  rewrite list_comprehension_map. fn_lookup. rewrite Hl. simpl.
  by rewrite length_app, Nat.add_1_r.
Qed.

Lemma toolsets_share_supplied_collection_witness :
  fst ((do t1 <- RemoteMCPToolset.__init__ None None None None
                   (Some 0) None;
        do t2 <- RemoteMCPToolset.__init__ None None None None
                   (Some 0) None;
        RemoteMCPToolset.add_server_config t1 cfg_files;;
        do n2 <- RemoteMCPToolset.__len__ t2;
        do n <- RemoteMCPConfig.__len__ 0;
        do p <- RemoteMCPToolset.get_mcp_servers_config t2;
        ret (n2, n, p)) store_one_server)
  = Ok (S (length (servers_of store_one_server 0)),
        S (length (servers_of store_one_server 0)),
        map MCPServerConfig.to_langdb_format
          (servers_of store_one_server 0 ++ [cfg_files])).
Proof.
  apply (toolsets_share_supplied_collection 0 None None None None cfg_files
           store_one_server).
  discriminate.
Defined.

(** X14.  A supplied collection that is empty is not taken: the toolset
    gets a new collection, and an endpoint added to the toolset does not
    show in the supplied one. *)
Theorem empty_supplied_collection_not_taken (l : nat)
    (server_type name description : option string)
    (tool_filter : option RemoteMCPToolset.tool_filter_t)
    (server_config : MCPServerConfig.t) (st : store) :
  servers_of st l = [] ->
  l < next_loc st ->
  fst ((do t <- RemoteMCPToolset.__init__ None server_type name description
                  (Some l) tool_filter;
        RemoteMCPToolset.add_server_config t server_config;;
        do n <- RemoteMCPToolset.__len__ t;
        do m <- RemoteMCPConfig.__len__ l;
        ret (bool_decide (RemoteMCPToolset.mcp_config t = l), n, m)) st)
  = Ok (false, 1, 0).
Proof.
  intros Hl Hlt.
  unfold bind at 1. rewrite toolset_init_run.
  unfold chosen_config, store_with_config. rewrite Hl. simpl.
  fn_lookup. rewrite Hl. simpl.
  rewrite bool_decide_eq_false_2 by lia. done.
Qed.

Lemma empty_supplied_collection_not_taken_witness :
  fst ((do t <- RemoteMCPToolset.__init__ None None None None
                  (Some 0) None;
        RemoteMCPToolset.add_server_config t cfg_files;;
        do n <- RemoteMCPToolset.__len__ t;
        do m <- RemoteMCPConfig.__len__ 0;
        ret (bool_decide (RemoteMCPToolset.mcp_config t = 0), n, m))
         (mkStore (fun _ => []) 1 []))
  = Ok (false, 1, 0).
Proof.
  apply (empty_supplied_collection_not_taken 0 None None None None cfg_files
           (mkStore (fun _ => []) 1 [])).
  - reflexivity.
  - simpl. lia.
Defined.

(** X15.  The empty string as [server_url] counts as no URL: the
    constructor does the same with it as with [None], adds no endpoint
    and writes nothing to the log. *)
Theorem toolset_init_empty_url (server_type server_name server_description
    : option string) (mcp_config : option nat)
    (tool_filter : option RemoteMCPToolset.tool_filter_t) (st : store) :
  RemoteMCPToolset.__init__ (Some "") server_type server_name
    server_description mcp_config tool_filter st
  = RemoteMCPToolset.__init__ None server_type server_name
      server_description mcp_config tool_filter st
  /\ log (snd (RemoteMCPToolset.__init__ (Some "") server_type server_name
                server_description mcp_config tool_filter st))
     = log st
  /\ fst ((do t <- RemoteMCPToolset.__init__ (Some "") server_type
                     server_name server_description mcp_config tool_filter;
           RemoteMCPToolset.get_mcp_servers_config t) st)
     = Ok (map MCPServerConfig.to_langdb_format
             match mcp_config with
             | None => []
             | Some l => servers_of st l
             end).
Proof.
  split; [by rewrite !toolset_init_run|]. split.
  - rewrite toolset_init_run. simpl. unfold store_with_config.
    destruct mcp_config as [l|]; [case_bool_decide|]; done.
  - unfold bind. rewrite toolset_init_run.
    change (opt_str_truthy (Some "")) with false. cbv iota zeta.
    rewrite get_mcp_servers_config_run.
    cbn [fst RemoteMCPToolset.mcp_config].
    by rewrite chosen_config_servers.
Qed.

(** X16.  [get_tools] and [close] change no collection and raise
    nothing, however often they are called: the payload returned by
    [get_mcp_servers_config] after them is the payload before them. *)
Theorem get_tools_close_keep_payload (self : RemoteMCPToolset.t)
    (readonly_context : option nat) (st : store) :
  fst ((RemoteMCPToolset.close self;;
        RemoteMCPToolset.get_tools self readonly_context;;
        RemoteMCPToolset.close self;;
        RemoteMCPToolset.close self;;
        RemoteMCPToolset.get_tools self readonly_context;;
        RemoteMCPToolset.get_mcp_servers_config self) st)
  = fst (RemoteMCPToolset.get_mcp_servers_config self st)
  /\ fst (RemoteMCPToolset.close self st) = Ok tt
  /\ servers_of (snd (RemoteMCPToolset.close self st)) = servers_of st
  /\ log (snd (RemoteMCPToolset.close self st))
     = log st ++ [(DEBUG, "Closing RemoteMCPToolset (no-op for remote servers)")].
Proof.
  split; [|by repeat split].
  unfold bind. simpl. reflexivity.
Qed.

(** X17.  A toolset built from a URL that is not empty and no collection
    has exactly one endpoint, the one described by the single-endpoint
    arguments with empty metadata, and the constructor logs its addition
    once. *)
Theorem toolset_init_url_only (server_url : string)
    (server_type server_name server_description : option string)
    (tool_filter : option RemoteMCPToolset.tool_filter_t) (st : store) :
  server_url <> "" ->
  fst ((do t <- RemoteMCPToolset.__init__ (Some server_url) server_type
                  server_name server_description None tool_filter;
        do n <- RemoteMCPToolset.__len__ t;
        do p <- RemoteMCPToolset.get_mcp_servers_config t;
        ret (n, p)) st)
  = Ok (1, [MCPServerConfig.to_langdb_format
              (MCPServerConfig.mk server_url (default "sse" server_type)
                 server_name server_description ∅)])
  /\ log (snd (RemoteMCPToolset.__init__ (Some server_url) server_type
                server_name server_description None tool_filter st))
     = log st ++ [(INFO, "Added remote MCP server: " +:+ server_url
                         +:+ " (type: " +:+ default "sse" server_type
                         +:+ ")")].
Proof.
  intros Hurl.
  assert (opt_str_truthy (Some server_url) = true) as Htruthy.
  { apply opt_str_truthy_true. by exists server_url. }
  split.
  - unfold bind at 1. rewrite toolset_init_run, Htruthy.
    cbv zeta. rewrite toolset_add_server_run. simpl.
    rewrite list_comprehension_map. fn_lookup. done.
  - rewrite toolset_init_run, Htruthy. cbv zeta.
    rewrite toolset_add_server_run. done.
Qed.

Lemma toolset_init_url_only_witness :
  fst ((do t <- RemoteMCPToolset.__init__ (Some "https://api.example/files")
                  (Some "http") (Some "files") None None None;
        do n <- RemoteMCPToolset.__len__ t;
        do p <- RemoteMCPToolset.get_mcp_servers_config t;
        ret (n, p)) store_one_server)
  = Ok (1, [MCPServerConfig.to_langdb_format
              (MCPServerConfig.mk "https://api.example/files"
                 (default "sse" (Some "http")) (Some "files") None ∅)])
  /\ log (snd (RemoteMCPToolset.__init__ (Some "https://api.example/files")
                (Some "http") (Some "files") None None None
                store_one_server))
     = log store_one_server
       ++ [(INFO, "Added remote MCP server: "
                  +:+ "https://api.example/files"
                  +:+ " (type: " +:+ default "sse" (Some "http") +:+ ")")].
Proof.
  apply (toolset_init_url_only "https://api.example/files" (Some "http")
           (Some "files") None None store_one_server).
  discriminate.
Defined.

(** ** The feature decorators, further *)

Section decorator_composition.

Import feature_decorator.

Context {U : Type}.

(** X18.  A callable decorated twice: a call issues the warning of the
    decorator applied last, then the warning of the decorator applied
    first, then calls the callable on the same arguments.  The first
    wrapper has the callable's [__name__], or [wrapper] when the callable
    has none, and that is the name the second warning carries and the
    second wrapper has. *)
Theorem double_decoration_warns_twice
    (label1 default1 label2 default2 : string) (message1 message2 : option string)
    (f : callable U) (classes : class_table U) (a : args) (w : world U) :
  match as_callable
          (fst (_make_feature_decorator label1 default1 message1
                  (ObjCallable f) classes)) with
  | Some inner =>
      match as_callable
              (fst (_make_feature_decorator label2 default2 message2
                      (ObjCallable inner) classes)) with
      | Some outer =>
          fn_call outer a w
          = fn_call f a
              (warned (warning_text label1
                         (default (fn_type_name f) (fn_name f))
                         (default default1 message1))
                 (warned (warning_text label2
                            (default "wrapper" (fn_name f))
                            (default default2 message2)) w))
          /\ fn_name inner = Some (default "wrapper" (fn_name f))
          /\ fn_name outer = Some (default "wrapper" (fn_name f))
      | None => False
      end
  | None => False
  end.
Proof.
  destruct (decorate_callable_run label1 default1 message1 f classes)
    as (inner & -> & Hname1 & Hcall1).
  cbn [fst as_callable].
  destruct (decorate_callable_run label2 default2 message2 inner classes)
    as (outer & -> & Hname2 & Hcall2).
  cbn [fst as_callable].
  rewrite Hcall2, Hcall1, Hname2, Hname1.
  unfold warning_for, obj_name. rewrite Hname1. done.
Qed.



(** X21.  The two decorators of the module, used without a message, warn
    with their default message: a call of the wrapper is a call of the
    callable after one warning that starts with [[WIP]], respectively
    [[EXPERIMENTAL]], names the callable and ends with the default
    text. *)
Theorem default_messages (f : callable U) (classes : class_table U)
    (a : args) (w : world U) :
  match as_callable (fst (working_in_progress None (ObjCallable f) classes)),
        as_callable (fst (experimental None (ObjCallable f) classes)) with
  | Some wip, Some exp =>
      fn_call wip a w
      = fn_call f a
          (warned ("[WIP] " +:+ default (fn_type_name f) (fn_name f)
                   +:+ ": This feature is a work in progress and may be incomplete or unstable.")
             w)
      /\ fn_call exp a w
         = fn_call f a
             (warned ("[EXPERIMENTAL] "
                      +:+ default (fn_type_name f) (fn_name f)
                      +:+ ": This feature is experimental and may change or be removed in future versions without notice. It may introduce breaking changes at any time.")
                w)
  | _, _ => False
  end.
Proof.
  unfold working_in_progress, experimental.
  destruct (decorate_callable_run "WIP"
              "This feature is a work in progress and may be incomplete or unstable."
              None f classes) as (wip & -> & _ & Hwip).
  destruct (decorate_callable_run "EXPERIMENTAL"
              ("This feature is experimental and may change or be removed in future"
               +:+ " versions without notice. It may introduce breaking changes at any"
               +:+ " time.")
              None f classes) as (exp & -> & _ & Hexp).
  cbn [fst as_callable]. rewrite Hwip, Hexp. split; reflexivity.
Qed.

End decorator_composition.

